(** * pyMRA: the data-set prediction script and the MRA tree interface

    The development has two parts.

    - [Module Script] embeds [pyMRA/tests/test-MRA-data.py]: CSV loading,
      coordinate normalisation, grid inference, the observation mask and
      the control flow of the main program.
    - [Module MRA] holds the model of the MRA tree (partitioning, knot
      selection, life cycle and [predict]) whose implementation modules
      [pyMRA.MRATree] and [pyMRA.MRATools] are not part of the sources at
      hand; it follows the written specification.

    Numbers.  numpy's float64 values are modelled by [npfloat]: a finite
    value is an exact rational, and the three special values [PInf], [NInf]
    and [NaN] follow the IEEE rules.  Rounding, overflow and the sign of
    zero are not modelled. *)

From Stdlib Require Import QArith Qround Lia Lqa ZArith String Ascii SetoidList.
From stdpp Require Import base list.

#[local] Set Warnings "-register-all".

Local Open Scope Z_scope.
Local Open Scope nat_scope.
Local Open Scope string_scope.
Local Open Scope list_scope.

(** ** float64 values *)

Inductive npfloat : Type :=
| Fin (q : Q)
| PInf
| NInf
| NaN.

Module Float.

Definition zero : npfloat := Fin 0%Q.

Definition isnan (a : npfloat) : bool :=
  match a with NaN => true | _ => false end.

Definition isfinite (a : npfloat) : bool :=
  match a with Fin _ => true | _ => false end.

(* [a == b] *)
Definition eqb (a b : npfloat) : bool :=
  match a, b with
  | Fin x, Fin y => Qeq_bool x y
  | PInf, PInf => true
  | NInf, NInf => true
  | _, _ => false
  end.

(* [a < b]; false as soon as one side is NaN *)
Definition ltb (a b : npfloat) : bool :=
  match a, b with
  | NaN, _ | _, NaN => false
  | _, NInf => false
  | NInf, _ => true
  | PInf, _ => false
  | Fin _, PInf => true
  | Fin x, Fin y => negb (Qle_bool y x)
  end.

Definition neg (a : npfloat) : npfloat :=
  match a with
  | Fin x => Fin (- x)%Q
  | PInf => NInf
  | NInf => PInf
  | NaN => NaN
  end.

Definition add (a b : npfloat) : npfloat :=
  match a, b with
  | NaN, _ | _, NaN => NaN
  | Fin x, Fin y => Fin (x + y)%Q
  | PInf, NInf | NInf, PInf => NaN
  | PInf, _ | _, PInf => PInf
  | NInf, _ | _, NInf => NInf
  end.

Definition sub (a b : npfloat) : npfloat := add a (neg b).

(* Division as numpy does it: no exception, 0/0 and inf/inf are NaN and
   x/0 is an infinity of the sign of x. *)
Definition div (a b : npfloat) : npfloat :=
  match a, b with
  | NaN, _ | _, NaN => NaN
  | Fin x, Fin y =>
      if Qeq_bool y 0 then
        if Qeq_bool x 0 then NaN
        else if Qle_bool 0 x then PInf else NInf
      else Fin (x / y)%Q
  | Fin _, _ => zero
  | PInf, Fin y => if Qle_bool 0 y then PInf else NInf
  | NInf, Fin y => if Qle_bool 0 y then NInf else PInf
  | _, _ => NaN
  end.

(* The value relation behind [eqb]. *)
Definition eq (a b : npfloat) : Prop :=
  match a, b with
  | Fin x, Fin y => (x == y)%Q
  | PInf, PInf => True
  | NInf, NInf => True
  | _, _ => False
  end.



End Float.

(** ** numpy reductions over one-dimensional arrays *)

Inductive exn : Type :=
| ValueError
| IndexError
| SystemExit
| OtherError
| ConfigurationError
| ArithmeticFailure
| PreconditionError.

Inductive result (A : Type) : Type :=
| Ok (a : A)
| Raise (e : exn).
Arguments Ok {A} a.
Arguments Raise {A} e.

#[export] Instance result_ret : MRet result := fun _ a => Ok a.
#[export] Instance result_bind : MBind result := fun _ _ f m =>
  match m with
  | Ok a => f a
  | Raise e => Raise e
  end.

Module Np.

(* The smaller of two values; NaN wins. *)
Definition fmin (a b : npfloat) : npfloat :=
  if Float.isnan a then a
  else if Float.isnan b then b
  else if Float.ltb b a then b else a.

Definition fmax (a b : npfloat) : npfloat :=
  if Float.isnan a then a
  else if Float.isnan b then b
  else if Float.ltb a b then b else a.


(* [np.min] raises ValueError on a zero-size array. *)
Definition min (l : list npfloat) : result npfloat :=
  match l with
  | [] => Raise ValueError
  | x :: t => Ok (fold_left fmin t x)
  end.

Definition max (l : list npfloat) : result npfloat :=
  match l with
  | [] => Raise ValueError
  | x :: t => Ok (fold_left fmax t x)
  end.

Definition sum (l : list npfloat) : npfloat :=
  fold_left Float.add l Float.zero.

(* [np.nanmean]: the mean of the entries that are not NaN; NaN when there
   is none. *)
Definition nanmean (l : list npfloat) : npfloat :=
  let kept := List.filter (fun a => negb (Float.isnan a)) l in
  Float.div (sum kept) (Fin (inject_Z (Z.of_nat (length kept)))).

Fixpoint insert_sorted (x : npfloat) (l : list npfloat) : list npfloat :=
  match l with
  | [] => [x]
  | y :: t =>
      if Float.eqb x y then l
      else if Float.ltb x y then x :: l
      else y :: insert_sorted x t
  end.

(* [np.unique]: the sorted distinct values.  NaNs come last; they are
   merged into one from numpy 1.21 on ([equal_nan = true]) and all kept
   before. *)
Definition unique (equal_nan : bool) (l : list npfloat) : list npfloat :=
  let vals := foldr insert_sorted [] (List.filter (fun a => negb (Float.isnan a)) l) in
  let nans := List.filter Float.isnan l in
  vals ++ (if equal_nan then firstn 1 nans else nans).



(* [np.any] *)
Definition any (l : list npfloat) : bool :=
  existsb (fun a => negb (Float.eqb a Float.zero)) l.

Fixpoint chunks {A} (rows cols : nat) (l : list A) : list (list A) :=
  match rows with
  | O => []
  | S r => firstn cols l :: chunks r cols (skipn cols l)
  end.

(* [a.reshape((rows, cols))] of a C-ordered array; ValueError when the
   sizes do not match. *)
Definition reshape {A} (rows cols : nat) (l : list A) : result (list (list A)) :=
  if Nat.eqb (rows * cols) (length l) then Ok (chunks rows cols l)
  else Raise ValueError.

End Np.

(** ** The configuration handed to the tree

    [MRATree(locs, M, J, r0, critDepth, cov, y_obs, R)]: the eight
    arguments of the constructor call, in its order. *)

Definition loc : Type := (npfloat * npfloat)%type.
Definition matrix : Type := list (list npfloat).

Record Config : Type := mkConfig {
  locations : list loc;
  M : Z;
  J : Z;
  r0 : Z;
  critDepth : Z;
  covarianceFn : list loc -> list loc -> matrix;
  observations : list npfloat;
  measurementErrorVariance : npfloat
}.

(** ** The script [tests/test-MRA-data.py] *)

Module Script.

(* Characters removed by [str.strip()] (the ASCII ones). *)
Definition is_space (c : ascii) : bool :=
  let n := nat_of_ascii c in
  (((9 <=? n) && (n <=? 13)) || ((28 <=? n) && (n <=? 32)))%nat.

Fixpoint lstrip (s : string) : string :=
  match s with
  | EmptyString => EmptyString
  | String c t => if is_space c then lstrip t else s
  end.

Fixpoint rstrip (s : string) : string :=
  match s with
  | EmptyString => EmptyString
  | String c t =>
      match rstrip t with
      | EmptyString => if is_space c then EmptyString else String c EmptyString
      | r => String c r
      end
  end.

Definition strip (s : string) : string := rstrip (lstrip s).

(* [s.split(sep)] for a one-character separator: always at least one
   field. *)
Fixpoint split (sep : ascii) (s : string) : list string :=
  match s with
  | EmptyString => [EmptyString]
  | String c t =>
      if Ascii.eqb c sep then EmptyString :: split sep t
      else match split sep t with
           | f :: fs => String c f :: fs
           | [] => [String c EmptyString]
           end
  end.

(* Line 44: every line stripped and split at commas, the first line
   dropped. *)
Definition read_csv (lines : list string) : list (list string) :=
  tail (map (fun line => split "," (strip line)) lines).

(* [line[i]] *)
Definition index (line : list string) (i : nat) : result string :=
  match nth_error line i with
  | Some f => Ok f
  | None => Raise IndexError
  end.

(* The N x 2 array [locs] is kept as its two columns; [y_obs] and [y] are
   N x 1. *)
Record arrays : Type := mkArrays {
  locs0 : list npfloat;
  locs1 : list npfloat;
  y_obs : list npfloat;
  y : list npfloat
}.

Definition rows (a : arrays) : list loc := combine (locs0 a) (locs1 a).

Record row : Type := mkRow {
  row_loc0 : npfloat;
  row_loc1 : npfloat;
  row_obs : npfloat;
  row_truth : npfloat
}.

(* What the script has computed when it reaches the display, lines 46-74. *)
Record prepared : Type := mkPrepared {
  N : nat;
  data : arrays;
  Nx : nat;
  Ny : nat;
  obs_mean : npfloat;
  obs_inds : list bool;
  R : npfloat
}.

Inductive event : Type :=
| EvSeed (seed : Z)
| EvLogConfig
| EvDisp (title : string) (m : matrix)
| EvLog (msg : string)
| EvBuild (cfg : Config)
| EvPredict
| EvSave (file : string) (m : matrix).

(* A run of the program: what it did, in order, and how it ended. *)
Definition Run (A : Type) : Type := (list event * result A)%type.

Definition run_ret {A} (a : A) : Run A := ([], Ok a).

Definition run_bind {A B} (m : Run A) (f : A -> Run B) : Run B :=
  match m with
  | (tr, Ok a) => let '(tr', r) := f a in (tr ++ tr', r)
  | (tr, Raise e) => (tr, Raise e)
  end.

Definition emit (e : event) : Run unit := ([e], Ok tt).

Definition lift {A} (r : result A) : Run A := ([], r).

(* [sys.exit()] *)
Definition sys_exit : Run unit := ([], Raise SystemExit).

Definition trace {A} (m : Run A) : list event := fst m.
Definition outcome {A} (m : Run A) : result A := snd m.

(* The statements placed after line 79. *)
Definition after_exit (e : event) : bool :=
  match e with
  | EvBuild _ | EvPredict | EvSave _ _ => true
  | EvLog _ => true
  | _ => false
  end.

Definition me_scale : npfloat := Fin (1 # 10000).

(* Lines 61-62: [col - np.min(col)]. *)
Definition shift (col : list npfloat) : result (list npfloat) :=
  m ← Np.min col; Ok (map (fun x => Float.sub x m) col).

(* The divisor of lines 64-65: [np.max] of the shifted column. *)
Definition divisor (shifted : list npfloat) : result npfloat := Np.max shifted.

(* Lines 64-65: [col / np.max(col)]. *)
Definition scale (shifted : list npfloat) : result (list npfloat) :=
  d ← divisor shifted; Ok (map (fun x => Float.div x d) shifted).

Definition normalize (col : list npfloat) : result (list npfloat) :=
  s ← shift col; scale s.




Section Program.

(* Python's [float] on a string: what it returns, or ValueError. *)
Variable float : string -> result npfloat.
(* Whether this numpy merges NaNs in [np.unique]. *)
Variable equal_nan : bool.
(* [mt.dispMat(m, cmap=..., title=...)]: returns, or raises. *)
Variable dispMat : matrix -> string -> string -> result unit.
(* [mt.ExpCovFun(locs1, locs2, l=...)] *)
Variable ExpCovFun : list loc -> list loc -> npfloat -> matrix.
(* The class [MRATree]: its constructor and [predict]. *)
Variable tree : Type.
Variable MRATree : Config -> result tree.
Variable predict : tree -> result (list npfloat * list npfloat).

(* Lines 55-59, one pass of the loop body. *)
Definition load_row (line : list string) : result row :=
  f0 ← index line 0; v1 ← float f0;
  f1 ← index line 1; v0 ← float f1;
  f2 ← index line 2;
  o ← (if String.eqb f2 "NA" then Ok NaN else float f2);
  t ← (if (3 <? length line)%nat
       then f3 ← index line 3; float f3
       else Ok Float.zero);
  Ok (mkRow v0 v1 o t).

(* Lines 53-59: the loop; the first failing row ends it. *)
Fixpoint load_rows (csv : list (list string)) : result (list row) :=
  match csv with
  | [] => Ok []
  | line :: rest =>
      r ← load_row line;
      rs ← load_rows rest;
      Ok (r :: rs)
  end.

(* Lines 46-59. *)
Definition load (csv : list (list string)) : result arrays :=
  rs ← load_rows csv;
  Ok (mkArrays (map row_loc0 rs) (map row_loc1 rs)
               (map row_obs rs) (map row_truth rs)).

(* Lines 46-74. *)
Definition prepare (lines : list string) : result prepared :=
  let csv := read_csv lines in
  raw ← load csv;
  s0 ← shift (locs0 raw);
  s1 ← shift (locs1 raw);
  c0 ← scale s0;
  c1 ← scale s1;
  let nx := length (Np.unique equal_nan c0) in
  let ny := length (Np.unique equal_nan c1) in
  let mean := Np.nanmean (y_obs raw) in
  let yo := map (fun v => Float.sub v mean) (y_obs raw) in
  let yt := map (fun v => Float.sub v mean) (y raw) in
  Ok (mkPrepared (length csv) (mkArrays c0 c1 yo yt) nx ny mean
                 (map Float.isfinite yo) me_scale).

Definition sub_matrix (a b : matrix) : matrix :=
  map (fun '(ra, rb) => map (fun '(x, y) => Float.sub x y) (combine ra rb))
      (combine a b).

(* The arguments of the constructor call of line 89, with [M=2; J=4; r0=2]
   of line 38, [critDepth = M+1] of line 40 and the [cov] of line 85. *)
Definition call_config (p : prepared) : Config :=
  let Mv := 2%Z in
  let cov := fun l1 l2 => ExpCovFun l1 l2 (Fin (3 # 10)) in
  mkConfig (rows (data p)) Mv 4 2 (Mv + 1) cov (y_obs (data p)) (R p).

(* Lines 83-112, never reached from [main] as long as line 79 stands. *)
Definition tail_of_main (p : prepared) : Run unit :=
  run_bind (emit (EvLog "MRA started")) (fun _ =>
  let cfg := call_config p in
  run_bind (emit (EvBuild cfg)) (fun _ =>
  run_bind (lift (MRATree cfg)) (fun mraTree =>
  run_bind (emit EvPredict) (fun _ =>
  run_bind (lift (predict mraTree)) (fun '(yP, sdP) =>
  run_bind (lift (Np.reshape (Nx p) (Ny p) sdP)) (fun sdP =>
  run_bind (lift (Np.reshape (Nx p) (Ny p) yP)) (fun yP =>
  run_bind (emit (EvLog "MRA finished")) (fun _ =>
  run_bind (emit (EvSave "y-pred.npy" yP)) (fun _ =>
  run_bind (lift (dispMat yP "Spectral" "prediction")) (fun _ =>
  run_bind (emit (EvDisp "prediction" yP)) (fun _ =>
  run_bind (lift (dispMat sdP "coolwarm" "standard deviation")) (fun _ =>
  run_bind (emit (EvDisp "standard deviation" sdP)) (fun _ =>
  if Np.any (y (data p)) then
    run_bind (lift (Np.reshape (Nx p) (Ny p) (y (data p)))) (fun yt =>
    run_bind (lift (dispMat yt "Spectral" "truth")) (fun _ =>
    run_bind (emit (EvDisp "truth" yt)) (fun _ =>
    run_bind (lift (dispMat (sub_matrix yP yt) "coolwarm" "difference")) (fun _ =>
    emit (EvDisp "difference" (sub_matrix yP yt))))))
  else run_ret tt))))))))))))).

(* The main program, lines 30-112. *)
Definition main (lines : list string) : Run unit :=
  run_bind (emit (EvSeed 11)) (fun _ =>
  run_bind (emit EvLogConfig) (fun _ =>
  run_bind (lift (prepare lines)) (fun p =>
  run_bind (lift (Np.reshape (Nx p) (Ny p) (y_obs (data p)))) (fun y_disp =>
  run_bind (lift (dispMat y_disp "Spectral" "observations")) (fun _ =>
  run_bind (emit (EvDisp "observations" y_disp)) (fun _ =>
  run_bind sys_exit (fun _ =>
  tail_of_main p))))))).

End Program.

End Script.

(** ** The MRA tree

    The modules [pyMRA.MRATree] and [pyMRA.MRATools] are imported by the
    script but their code is not among the sources.  The definitions of
    this module follow the written specification instead. *)

Module MRA.


Section Tree.

(* Bounding regions of the SpatialPartitioner. *)
Variable region : Type.
(* The region of the root, from all the locations. *)
Variable bbox : list loc -> region.
(* Whether a location falls in a region. *)
Variable inside : region -> loc -> bool.
(* [subdivide J level r]: the sub-regions of [r] at a node of this level. *)
Variable subdivide : nat -> nat -> region -> list region.
(* KnotSelector: [select r0 assigned], the knots among the assigned
   indices. *)
Variable select : nat -> list nat -> list nat.

(** Modelled from the spec: the tree node of section 3 (level, index among
    siblings, bounding region, assigned point indices, knot set, residual
    set of a leaf, children); [MRATree.py] is not among the sources. *)
Inductive node : Type :=
| Node (level sibling : nat) (bounds : region)
       (assigned knots residual : list nat) (children : list node).

(* The numerical passes: the prior blocks of the tree, and the posterior
   mean and variance of one location, or an arithmetic failure. *)
Variable priorsT : Type.
Variable prior_pass : Config -> node -> priorsT.
Variable posterior_pass :
  Config -> node -> priorsT -> nat -> option (npfloat * npfloat).
Variable sqrt : npfloat -> npfloat.

Definition level (n : node) : nat := let 'Node l _ _ _ _ _ _ := n in l.
Definition assigned (n : node) : list nat := let 'Node _ _ _ a _ _ _ := n in a.
Definition knots (n : node) : list nat := let 'Node _ _ _ _ k _ _ := n in k.
Definition residual (n : node) : list nat := let 'Node _ _ _ _ _ r _ := n in r.
Definition children (n : node) : list node := let 'Node _ _ _ _ _ _ c := n in c.

Definition mem (i : nat) (l : list nat) : bool := existsb (Nat.eqb i) l.

(* The location of index [i]. *)
Definition loc_at (locs : list loc) (i : nat) : loc := nth i locs (NaN, NaN).

(** Modelled from the spec: the recursive construction of [MRATree.py],
    which is not among the sources, after sections 3, 4.1 and 4.2.  A node
    takes its knots from its assigned indices; the others stay with a leaf
    as its residual set, or go to the children whose region they fall in.
    [depth] counts the levels below the node. *)
Fixpoint build_node (locs : list loc) (Jn rn : nat) (depth lvl sib : nat)
         (reg : region) (asg : list nat) : node :=
  let ks := select rn asg in
  let rest := List.filter (fun i => negb (mem i ks)) asg in
  match depth with
  | O => Node lvl sib reg asg ks rest []
  | S d =>
      Node lvl sib reg asg ks []
        (map (fun '(k, rk) =>
                build_node locs Jn rn d (S lvl) k rk
                  (List.filter (fun i => inside rk (loc_at locs i)) rest))
             (combine (seq 0 (length (subdivide Jn lvl reg)))
                      (subdivide Jn lvl reg)))
  end.

(* The sets the invariant speaks of: every node's knot set and every
   leaf's residual set. *)
Fixpoint sets (n : node) : list (list nat) :=
  match n with
  | Node _ _ _ _ ks rs cs =>
      ks :: (match cs with [] => [rs] | _ => [] end) ++ flat_map sets cs
  end.


Definition all_indices (n : node) : list nat := concat (sets n).

(** Modelled from the spec: the checks of the constructor of [MRATree.py],
    which is not among the sources, after the ConfigurationError
    conditions of section 7. *)
Definition valid (cfg : Config) : bool :=
  negb ((M cfg + 1 <? critDepth cfg)%Z
        || (J cfg <? 1)%Z
        || (r0 cfg <? 0)%Z
        || (Z.of_nat (length (locations cfg)) <? r0 cfg)%Z).

(** Modelled from the spec: the skeleton of the tree of [MRATree.py], which
    is not among the sources: the root holds every index, its region is
    the bounding region of the locations, and the leaves are [critDepth - 1]
    levels below it, [M] at most (sections 2 and 3). *)
Definition skeleton (cfg : Config) : node :=
  build_node (locations cfg) (Z.to_nat (J cfg)) (Z.to_nat (r0 cfg))
             (Z.to_nat (Z.min (M cfg) (critDepth cfg - 1))) 0 0
             (bbox (locations cfg)) (seq 0 (length (locations cfg))).

(* One entry of the posterior-statistics cache: an index with its mean and
   variance. *)
Definition entry : Type := (nat * (npfloat * npfloat))%type.

(** Modelled from the spec: the tree handle of [MRATree.py], which is not
    among the sources, in the states of section 4.5, each with what has
    been computed when it is reached. *)
Inductive tree : Type :=
| TUnbuilt (cfg : Config)
| TSkeleton (cfg : Config) (root : node)
| TPriors (cfg : Config) (root : node) (pri : priorsT)
| TPosterior (cfg : Config) (root : node) (pri : priorsT) (cache : list entry)
| TReady (cfg : Config) (root : node) (pri : priorsT) (cache : list entry).



Definition root (t : tree) : option node :=
  match t with
  | TUnbuilt _ => None
  | TSkeleton _ r | TPriors _ r _ | TPosterior _ r _ _ | TReady _ r _ _ => Some r
  end.

(* The posterior of every index of the list, or the first failure. *)
Fixpoint collect (f : nat -> option (npfloat * npfloat)) (l : list nat)
  : result (list entry) :=
  match l with
  | [] => Ok []
  | i :: rest =>
      match f i with
      | None => Raise ArithmeticFailure
      | Some v => es ← collect f rest; Ok ((i, v) :: es)
      end
  end.

(** Modelled from the spec: the stages of the construction in
    [MRATree.py], which is not among the sources, after the state machine
    of section 4.5: skeleton, prior pass, posterior pass, Ready. *)
Definition step (t : tree) : result tree :=
  match t with
  | TUnbuilt cfg =>
      if valid cfg then Ok (TSkeleton cfg (skeleton cfg))
      else Raise ConfigurationError
  | TSkeleton cfg r => Ok (TPriors cfg r (prior_pass cfg r))
  | TPriors cfg r pri =>
      es ← collect (posterior_pass cfg r pri) (all_indices r);
      Ok (TPosterior cfg r pri es)
  | TPosterior cfg r pri es => Ok (TReady cfg r pri es)
  | TReady cfg r pri es => Ok (TReady cfg r pri es)
  end.

Fixpoint steps (k : nat) (t : tree) : result tree :=
  match k with
  | O => Ok t
  | S k' => t' ← step t; steps k' t'
  end.

(** Modelled from the spec: the constructor of the class [MRATree], whose
    code is not among the sources; construction (section 6) runs every
    stage. *)
Definition MRATree (cfg : Config) : result tree := steps 4 (TUnbuilt cfg).

(* Writes every value at its index. *)
Definition scatter {A} (es : list (nat * A)) (out : list A) : list A :=
  foldl (fun o e => <[fst e := snd e]> o) out es.

Definition means (es : list entry) : list (nat * npfloat) :=
  map (fun e => (fst e, fst (snd e))) es.

Definition deviations (es : list entry) : list (nat * npfloat) :=
  map (fun e => (fst e, sqrt (snd (snd e)))) es.

(** Modelled from the spec: [MRATree.predict], whose code is not among the
    sources, after the output assembly of section 4.5 and the
    PreconditionError of section 7. *)
Definition predict (t : tree) : result (list npfloat * list npfloat) :=
  match t with
  | TReady cfg r pri es =>
      let n := length (locations cfg) in
      Ok (scatter (means es) (replicate n Float.zero),
          scatter (deviations es) (replicate n Float.zero))
  | _ => Raise PreconditionError
  end.

End Tree.

End MRA.

(** ** Concrete instances

    Stand-ins for what the models above take as parameters, used to run
    them on concrete inputs. *)

Module Sample.

Definition digit (c : ascii) : option Z :=
  let n := nat_of_ascii c in
  if ((48 <=? n) && (n <=? 57))%nat then Some (Z.of_nat (n - 48)) else None.

(* The leading digits of [s]: their value, their number, and what follows. *)
Fixpoint digits (s : string) (acc : Z) (cnt : nat) : Z * nat * string :=
  match s with
  | EmptyString => (acc, cnt, s)
  | String c t =>
      match digit c with
      | Some d => digits t (10 * acc + d)%Z (S cnt)
      | None => (acc, cnt, s)
      end
  end.

Definition unsigned_lit (s : string) : result npfloat :=
  let '(ip, ni, rest) := digits s 0%Z 0 in
  match rest with
  | EmptyString =>
      if (ni =? 0)%nat then Raise ValueError else Ok (Fin (inject_Z ip))
  | String "."%char t =>
      let '(fp, nf, rest') := digits t 0%Z 0 in
      match rest' with
      | EmptyString =>
          if (ni + nf =? 0)%nat then Raise ValueError
          else Ok (Fin (Qmake (ip * 10 ^ Z.of_nat nf + fp)
                              (Z.to_pos (10 ^ Z.of_nat nf))))
      | _ => Raise ValueError
      end
  | _ => Raise ValueError
  end.

(* Python's [float] on the plain decimal literals (optional sign, digits,
   optional fraction, no exponent) and on [nan], [inf] and [-inf]; the
   other spellings Python accepts are refused here. *)
Definition float_lit (s : string) : result npfloat :=
  let s := Script.strip s in
  if String.eqb s "nan" then Ok NaN
  else if String.eqb s "inf" then Ok PInf
  else if String.eqb s "-inf" then Ok NInf
  else match s with
       | String "-"%char t => v ← unsigned_lit t; Ok (Float.neg v)
       | String "+"%char t => unsigned_lit t
       | _ => unsigned_lit s
       end.

(* A 2 x 2 grid with two missing observations. *)
Definition grid_lines : list string :=
  ["x,y,obs"; "0,0,1"; "0,1,NA"; "1,0,0"; "1,1,NA"].



(* A file with nothing but its header. *)
Definition header_only : list string := ["x,y,obs"].

(* A row with two fields only. *)
Definition short_lines : list string := ["x,y,obs"; "0,1"].

(* Three points on a diagonal: no full grid. *)
Definition diagonal_lines : list string :=
  ["x,y,obs"; "0,0,1"; "1,1,NA"; "2,2,0"].

(* A display that always returns. *)
Definition show (m : matrix) (cmap title : string) : result unit := Ok tt.

(* A covariance function of the right shape. *)
Definition flat_cov (l1 l2 : list loc) (l : npfloat) : matrix :=
  map (fun _ => map (fun _ => Float.zero) l2) l1.

(* A tree class whose constructor refuses every configuration. *)
Definition no_tree (cfg : Config) : result unit := Raise OtherError.
Definition no_predict (t : unit) : result (list npfloat * list npfloat) :=
  Raise OtherError.











End Sample.

(** * Properties *)

(** ** Values and reductions *)

Module NpFacts.














Lemma pos_not_zero (y : Q) : (0 < y)%Q -> Qeq_bool y 0 = false.
Proof.
  intros Hy. destruct (Qeq_bool y 0) eqn:E; [| reflexivity].
  apply Qeq_bool_iff in E. lra.
Qed.

Lemma eqb_eq (a b : npfloat) : Float.eqb a b = true <-> Float.eq a b.
Proof.
  destruct a, b; simpl; try easy; apply Qeq_bool_iff.
Qed.













End NpFacts.

(** ** The script: normalisation *)

Module NormalizeFacts.
Import Script NpFacts.











End NormalizeFacts.

(** ** The script: what [prepare] computes *)

Module PrepareFacts.
Import Script NpFacts NormalizeFacts.

(* Case analysis on the next fallible step of a computation that is known
   to have succeeded. *)
Ltac step_ok H :=
  match type of H with
  | context [match ?m with Ok _ => _ | Raise _ => _ end] =>
      let E := fresh "E" in
      destruct m eqn:E; [| discriminate H]
  end.

Ltac step_ok_as H x E :=
  match type of H with
  | context [match ?m with Ok _ => _ | Raise _ => _ end] =>
      destruct m as [x |] eqn:E; [| discriminate H]
  end.

Section Prepare.

Variable float : string -> result npfloat.
Variable equal_nan : bool.

Lemma prepare_inv (lines : list string) (p : prepared) :
  prepare float equal_nan lines = Ok p ->
  exists raw,
    load float (read_csv lines) = Ok raw /\
    normalize (locs0 raw) = Ok (locs0 (data p)) /\
    normalize (locs1 raw) = Ok (locs1 (data p)) /\
    N p = length (read_csv lines) /\
    Nx p = length (Np.unique equal_nan (locs0 (data p))) /\
    Ny p = length (Np.unique equal_nan (locs1 (data p))) /\
    obs_mean p = Np.nanmean (y_obs raw) /\
    y_obs (data p) = map (fun v => Float.sub v (obs_mean p)) (y_obs raw) /\
    y (data p) = map (fun v => Float.sub v (obs_mean p)) (y raw) /\
    obs_inds p = map Float.isfinite (y_obs (data p)) /\
    R p = me_scale.
Proof.
  unfold prepare, mbind, result_bind. intros H.
  step_ok H. step_ok H. step_ok H. step_ok H. step_ok H.
  injection H as <-. exists a. simpl.
  unfold normalize, mbind, result_bind. rewrite E0, E1, E2, E3.
  repeat split; reflexivity.
Qed.

Lemma normalize_inv (col out : list npfloat) :
  normalize col = Ok out ->
  exists m d,
    Np.min col = Ok m /\
    divisor (map (fun x => Float.sub x m) col) = Ok d /\
    out = map (fun x => Float.div (Float.sub x m) d) col.
Proof.
  unfold normalize, shift, scale, mbind, result_bind. intros H.
  destruct (Np.min col) as [m |] eqn:Em; [| discriminate H].
  step_ok H. injection H as <-.
  exists m, a. split; [reflexivity |]. split; [assumption |].
  now rewrite map_map.
Qed.




End Prepare.





End PrepareFacts.

(** ** The script: loading the file *)

Module LoadFacts.
Import Script PrepareFacts.

Section Load.

Variable float : string -> result npfloat.

Lemma index_inv (line : list string) (i : nat) (f : string) :
  index line i = Ok f -> nth_error line i = Some f.
Proof.
  unfold index. destruct (nth_error line i); [| discriminate].
  now intros [= ->].
Qed.

(* A row that loads has three fields at least; the first one is parsed
   into the second coordinate and the second one into the first. *)
Lemma load_row_inv (line : list string) (r : row) :
  load_row float line = Ok r ->
  exists f0 f1 f2 rest,
    line = f0 :: f1 :: f2 :: rest /\
    float f0 = Ok (row_loc1 r) /\
    float f1 = Ok (row_loc0 r) /\
    (if String.eqb f2 "NA" then Ok NaN else float f2) = Ok (row_obs r).
Proof.
  unfold load_row, mbind, result_bind. intros H.
  step_ok_as H f0 I0. step_ok_as H v1 F0.
  step_ok_as H f1 I1. step_ok_as H v0 F1.
  step_ok_as H f2 I2. step_ok_as H o F2.
  step_ok H. injection H as <-.
  apply index_inv in I0, I1, I2.
  destruct line as [| g0 [| g1 [| g2 rest]]]; try discriminate.
  simpl in I0, I1, I2. injection I0 as ->. injection I1 as ->. injection I2 as ->.
  exists f0, f1, f2, rest. simpl. now rewrite F2.
Qed.

Lemma load_rows_nth (csv : list (list string)) (rs : list row) :
  load_rows float csv = Ok rs ->
  forall idx,
    match nth_error csv idx with
    | None => nth_error rs idx = None
    | Some line => exists r, nth_error rs idx = Some r /\ load_row float line = Ok r
    end.
Proof.
  revert rs. induction csv as [| line rest IH]; simpl; intros rs H idx.
  - injection H as <-. now destruct idx.
  - unfold mbind, result_bind in H.
    destruct (load_row float line) as [r |] eqn:Er; [| discriminate H].
    destruct (load_rows float rest) as [rs' |] eqn:Ers; [| discriminate H].
    injection H as <-. destruct idx as [| idx]; simpl.
    + now exists r.
    + now apply IH.
Qed.

Lemma read_csv_nth (lines : list string) (idx : nat) :
  nth_error (read_csv lines) idx =
  option_map (fun line => split "," (strip line)) (nth_error lines (S idx)).
Proof.
  unfold read_csv. destruct lines as [| h rest]; simpl.
  - now destruct idx.
  - apply List.nth_error_map.
Qed.

(** C9: the rows of the script are the lines of the file after the first
    one, whatever the first line holds; and in a file that loads, row
    [idx] of [locs] comes from line [idx + 1]: the first field of the line
    is parsed into [locs[idx,1]] and the second field into [locs[idx,0]];
    there are no other rows. *)
Theorem columns_swapped (lines : list string) :
  read_csv lines = map (fun line => split "," (strip line)) (tail lines) /\
  forall raw,
    load float (read_csv lines) = Ok raw ->
    forall idx,
      match nth_error lines (S idx) with
      | None =>
          nth_error (locs0 raw) idx = None /\ nth_error (locs1 raw) idx = None
      | Some line =>
          exists f0 f1 rest v0 v1,
            split "," (strip line) = f0 :: f1 :: rest /\
            float f0 = Ok v1 /\ nth_error (locs1 raw) idx = Some v1 /\
            float f1 = Ok v0 /\ nth_error (locs0 raw) idx = Some v0
      end.
Proof.
  split.
  - unfold read_csv. now destruct lines.
  - intros raw H idx. unfold load, mbind, result_bind in H.
    destruct (load_rows float (read_csv lines)) as [rs |] eqn:Ers;
      [| discriminate H].
    injection H as <-. cbn [locs0 locs1].
    pose proof (load_rows_nth _ _ Ers idx) as Hn.
    rewrite read_csv_nth in Hn. rewrite !List.nth_error_map.
    destruct (nth_error lines (S idx)) as [line |]; simpl in Hn.
    + destruct Hn as (r & Hr & Hrow). rewrite Hr. cbn [option_map].
      destruct (load_row_inv _ _ Hrow) as (f0 & f1 & f2 & rest & Hs & F0 & F1 & _).
      exists f0, f1, (f2 :: rest), (row_loc0 r), (row_loc1 r). now rewrite Hs.
    + now rewrite Hn.
Qed.

Variable equal_nan : bool.

(** X1: an observation given as [NA] is NaN in [y_obs], also after the
    mean is subtracted, and [False] in the mask of observed indices, which
    line 73 derives from [y_obs] by [np.isfinite]. *)
Lemma missing_is_masked (lines : list string) (p : prepared) (idx : nat)
      (line : list string) :
  prepare float equal_nan lines = Ok p ->
  nth_error (read_csv lines) idx = Some line ->
  nth_error line 2 = Some "NA" ->
  obs_inds p = map Float.isfinite (y_obs (data p)) /\
  nth_error (y_obs (data p)) idx = Some NaN /\
  nth_error (obs_inds p) idx = Some false.
Proof.
  intros Hp Hline Hna.
  destruct (prepare_inv float equal_nan lines p Hp)
    as (raw & Hl & _ & _ & _ & _ & _ & _ & Hobs & _ & Hmask & _).
  split; [assumption |].
  unfold load, mbind, result_bind in Hl.
  destruct (load_rows float (read_csv lines)) as [rs |] eqn:Ers;
    [| discriminate Hl].
  injection Hl as <-. cbn [y_obs] in Hobs.
  pose proof (load_rows_nth _ _ Ers idx) as Hn. rewrite Hline in Hn.
  destruct Hn as (r & Hr & Hrow).
  destruct (load_row_inv _ _ Hrow) as (f0 & f1 & f2 & rest & -> & _ & _ & Ho).
  simpl in Hna. injection Hna as ->. simpl in Ho. injection Ho as Ho.
  assert (Hy : nth_error (y_obs (data p)) idx = Some NaN).
  { rewrite Hobs, !List.nth_error_map, Hr. simpl. now rewrite <- Ho. }
  split; [assumption |].
  now rewrite Hmask, List.nth_error_map, Hy.
Qed.

End Load.

Lemma missing_is_masked_witness :
  exists p,
    prepare Sample.float_lit true Sample.grid_lines = Ok p /\
    obs_inds p = [true; false; true; false] /\
    nth_error (y_obs (data p)) 1 = Some NaN /\
    nth_error (obs_inds p) 1 = Some false.
Proof.
  eexists. split; [vm_compute; reflexivity |].
  split; [reflexivity |].
  refine (proj2 (missing_is_masked Sample.float_lit true Sample.grid_lines
                   _ 1 ["0"; "1"; "NA"] eq_refl eq_refl eq_refl)).
Defined.

Lemma columns_swapped_witness :
  exists raw,
    load Sample.float_lit (read_csv Sample.grid_lines) = Ok raw /\
    locs0 raw = [Fin 0; Fin 1; Fin 0; Fin 1] /\
    locs1 raw = [Fin 0; Fin 0; Fin 1; Fin 1] /\
    read_csv Sample.grid_lines =
      map (fun line => split "," (strip line)) (tail Sample.grid_lines) /\
    exists f0 f1 rest v0 v1,
      split "," (strip "0,1,NA") = f0 :: f1 :: rest /\
      Sample.float_lit f0 = Ok v1 /\ nth_error (locs1 raw) 1 = Some v1 /\
      Sample.float_lit f1 = Ok v0 /\ nth_error (locs0 raw) 1 = Some v0.
Proof.
  eexists. split; [vm_compute; reflexivity |].
  split; [reflexivity |]. split; [reflexivity |].
  destruct (columns_swapped Sample.float_lit Sample.grid_lines)
    as [Hcsv Hrows].
  split; [exact Hcsv |]. exact (Hrows _ eq_refl 1).
Defined.

End LoadFacts.

(** ** The script: control flow of the main program *)

Module MainFacts.
Import Script.

Section Main.

Variable float : string -> result npfloat.
Variable equal_nan : bool.
Variable dispMat : matrix -> string -> string -> result unit.
Variable ExpCovFun : list loc -> list loc -> npfloat -> matrix.
Variable tree : Type.
Variable MRATree : Config -> result tree.
Variable predict : tree -> result (list npfloat * list npfloat).

Local Abbreviation main :=
  (main float equal_nan dispMat ExpCovFun tree MRATree predict).

(* A computation that raises runs nothing of what follows it. *)
Lemma run_bind_raise {A B} (tr : list event) (e : exn) (f : A -> Run B) :
  run_bind (tr, Raise e) f = (tr, Raise e).
Proof. reflexivity. Qed.

Lemma run_bind_emit {B} (ev : event) (f : unit -> Run B) :
  run_bind (emit ev) f = (ev :: trace (f tt), outcome (f tt)).
Proof. unfold run_bind, emit, trace, outcome. now destruct (f tt). Qed.

Lemma run_bind_lift {A B} (r : result A) (f : A -> Run B) :
  run_bind (lift r) f =
  match r with
  | Ok a => f a
  | Raise e => ([], Raise e)
  end.
Proof.
  unfold run_bind, lift. destruct r as [a | e]; [| reflexivity].
  now destruct (f a).
Qed.

(** C3 (amended): no run of the main program builds the tree, calls
    [predict] or saves [y-pred.npy], and none ends normally.  When the
    preparation, the reshape and the display raise nothing, the run ends
    at [sys.exit()] right after the observations are displayed; when the
    preparation raises, the run ends there with that exception. *)
Theorem exit_before_tree (lines : list string) :
  Forall (fun ev => after_exit ev = false) (trace (main lines)) /\
  (forall u, outcome (main lines) <> Ok u) /\
  (forall p y_disp,
      prepare float equal_nan lines = Ok p ->
      Np.reshape (Nx p) (Ny p) (y_obs (data p)) = Ok y_disp ->
      dispMat y_disp "Spectral" "observations" = Ok tt ->
      main lines =
        ([EvSeed 11; EvLogConfig; EvDisp "observations" y_disp],
         Raise SystemExit)) /\
  (forall e,
      prepare float equal_nan lines = Raise e ->
      main lines = ([EvSeed 11; EvLogConfig], Raise e)).
Proof.
  unfold Script.main.
  rewrite !run_bind_emit. cbn [trace outcome fst snd].
  rewrite run_bind_lift.
  destruct (prepare float equal_nan lines) as [p | e] eqn:Ep.
  - rewrite run_bind_lift.
    destruct (Np.reshape (Nx p) (Ny p) (y_obs (data p))) as [yd | e] eqn:Er.
    + rewrite run_bind_lift.
      destruct (dispMat yd "Spectral" "observations") as [[] | e] eqn:Ed.
      * rewrite run_bind_emit. unfold sys_exit. rewrite run_bind_raise.
        cbn [trace outcome fst snd].
        split; [now repeat constructor |].
        split; [discriminate |].
        split; [| discriminate].
        intros p' y' [= <-] Hr Hd. rewrite Er in Hr. now injection Hr as <-.
      * cbn [trace outcome fst snd].
        split; [now repeat constructor |].
        split; [discriminate |].
        split; [| discriminate].
        intros p' y' [= <-] Hr Hd. rewrite Er in Hr. injection Hr as <-.
        congruence.
    + cbn [trace outcome fst snd].
      split; [now repeat constructor |].
      split; [discriminate |].
      split; [| discriminate].
      intros p' y' [= <-] Hr. congruence.
  - cbn [trace outcome fst snd].
    split; [now repeat constructor |].
    split; [discriminate |].
    split; [discriminate |].
    now intros e' [= <-].
Qed.

End Main.

Lemma exit_before_tree_witness :
  Script.main Sample.float_lit true Sample.show Sample.flat_cov unit
              Sample.no_tree Sample.no_predict Sample.grid_lines =
  ([EvSeed 11; EvLogConfig;
    EvDisp "observations" [[Fin (1 # 2); NaN]; [Fin (-1 # 2); NaN]]],
   Raise SystemExit).
Proof.
  destruct (exit_before_tree Sample.float_lit true Sample.show Sample.flat_cov
              unit Sample.no_tree Sample.no_predict Sample.grid_lines)
    as (_ & _ & Hexit & _).
  eapply Hexit.
  - vm_compute. reflexivity.
  - vm_compute. reflexivity.
  - reflexivity.
Defined.

(* A file with nothing but its header: the run ends in [np.min] with a
   ValueError, before anything is displayed and before [sys.exit()]. *)
Lemma header_only_raises :
  Script.main Sample.float_lit true Sample.show Sample.flat_cov unit
              Sample.no_tree Sample.no_predict Sample.header_only =
  ([EvSeed 11; EvLogConfig], Raise ValueError) /\
  outcome (Script.main Sample.float_lit true Sample.show Sample.flat_cov unit
             Sample.no_tree Sample.no_predict Sample.header_only)
    <> Raise SystemExit.
Proof.
  split; [vm_compute; reflexivity |].
  vm_compute. discriminate.
Qed.

End MainFacts.

(** ** The tree: partition of the location indices *)

Module TreeFacts.
Import MRA.







Section Skeleton.

Variable region : Type.
Variable bbox : list loc -> region.
Variable inside : region -> loc -> bool.
Variable subdivide : nat -> nat -> region -> list region.
Variable select : nat -> list nat -> list nat.

(* KnotSelector (section 4.2): the knots are some of the assigned indices,
   each once. *)
Hypothesis select_sound :
  forall r l, List.NoDup l ->
              List.NoDup (select r l) /\ (forall x, In x (select r l) -> In x l).
(* The region of the root holds every location. *)
Hypothesis bbox_covers :
  forall locs i, i < length locs -> inside (bbox locs) (loc_at locs i) = true.
(* SpatialPartitioner (section 4.1): the sub-regions cover the region and
   do not overlap, so that a location of the region falls in exactly one
   of them (a shared boundary belongs to one side). *)
Hypothesis subdivide_splits :
  forall Jn lvl reg p,
    1 <= Jn -> inside reg p = true ->
    length (List.filter (fun rk => inside rk p) (subdivide Jn lvl reg)) = 1.

Local Abbreviation build := (build_node region inside subdivide select).



Variable priorsT : Type.
Variable prior_pass : Config -> node region -> priorsT.
Variable posterior_pass :
  Config -> node region -> priorsT -> nat -> option (npfloat * npfloat).

Local Abbreviation skeleton := (skeleton region bbox inside subdivide select).
Local Abbreviation MRATree :=
  (MRATree region bbox inside subdivide select priorsT prior_pass posterior_pass).
Local Abbreviation steps :=
  (steps region bbox inside subdivide select priorsT prior_pass posterior_pass).


(* Construction succeeds on a valid configuration whenever the posterior
   pass does, and raises ConfigurationError on an invalid one. *)
Lemma MRATree_total (cfg : Config) :
  (valid cfg = false -> MRATree cfg = Raise ConfigurationError) /\
  (valid cfg = true ->
   (forall i, posterior_pass cfg (skeleton cfg)
                (prior_pass cfg (skeleton cfg)) i <> None) ->
   exists t, MRATree cfg = Ok t).
Proof.
  unfold MRA.MRATree. cbn [MRA.steps MRA.step mbind result_bind].
  split; intros Hv; rewrite Hv; [reflexivity |].
  intros Hp. cbn [MRA.steps MRA.step mbind result_bind].
  assert (Hc : exists es,
    collect (posterior_pass cfg (skeleton cfg) (prior_pass cfg (skeleton cfg)))
            (all_indices region (skeleton cfg)) = Ok es).
  { generalize (all_indices region (skeleton cfg)).
    induction l as [| a l [es IH]]; simpl; [now exists [] |].
    destruct (posterior_pass _ _ _ a) as [v |] eqn:Ef;
      [| now destruct (Hp a)].
    rewrite IH. now eexists. }
  destruct Hc as [es ->]. cbn [MRA.steps MRA.step mbind result_bind].
  now eexists.
Qed.




End Skeleton.

(** Contracts of the concrete partitioner and selector. *)










End TreeFacts.

(** ** The tree: life cycle and prediction *)

Module PredictFacts.
Import MRA TreeFacts.







Section Predict.

Variable region : Type.
Variable bbox : list loc -> region.
Variable inside : region -> loc -> bool.
Variable subdivide : nat -> nat -> region -> list region.
Variable select : nat -> list nat -> list nat.
Variable priorsT : Type.
Variable prior_pass : Config -> node region -> priorsT.
Variable posterior_pass :
  Config -> node region -> priorsT -> nat -> option (npfloat * npfloat).
Variable sqrt : npfloat -> npfloat.

Local Abbreviation skeleton := (skeleton region bbox inside subdivide select).
Local Abbreviation MRATree :=
  (MRATree region bbox inside subdivide select priorsT prior_pass posterior_pass).
Local Abbreviation steps :=
  (steps region bbox inside subdivide select priorsT prior_pass posterior_pass).
Local Abbreviation step :=
  (step region bbox inside subdivide select priorsT prior_pass posterior_pass).
Local Abbreviation predict := (predict region priorsT sqrt).
Local Abbreviation build := (build_node region inside subdivide select).









(* The contracts of the KnotSelector and of the SpatialPartitioner, as in
   [TreeFacts]. *)
Hypothesis select_sound :
  forall r l, List.NoDup l ->
              List.NoDup (select r l) /\ (forall x, In x (select r l) -> In x l).
Hypothesis bbox_covers :
  forall locs i, i < length locs -> inside (bbox locs) (loc_at locs i) = true.
Hypothesis subdivide_splits :
  forall Jn lvl reg p,
    1 <= Jn -> inside reg p = true ->
    length (List.filter (fun rk => inside rk p) (subdivide Jn lvl reg)) = 1.


Section Call.

Variable dispMat : matrix -> string -> string -> result unit.
Variable ExpCovFun : list loc -> list loc -> npfloat -> matrix.


End Call.


End Predict.




End PredictFacts.

(** ** The script: errors and edge cases of the preparation *)

Module EdgeFacts.
Import Script NpFacts NormalizeFacts PrepareFacts LoadFacts.

Section Edge.

Variable float : string -> result npfloat.
Variable equal_nan : bool.

Lemma load_rows_length (csv : list (list string)) (rs : list row) :
  load_rows float csv = Ok rs -> length rs = length csv.
Proof.
  revert rs. induction csv as [| line rest IH]; simpl; intros rs H.
  - now injection H as <-.
  - unfold mbind, result_bind in H.
    step_ok_as H r Er. step_ok_as H rs' Ers. injection H as <-.
    simpl. now rewrite (IH rs' eq_refl).
Qed.

Lemma load_lengths (csv : list (list string)) (raw : arrays) :
  load float csv = Ok raw ->
  length (locs0 raw) = length csv /\ length (locs1 raw) = length csv /\
  length (y_obs raw) = length csv /\ length (y raw) = length csv.
Proof.
  unfold load, mbind, result_bind. intros H. step_ok_as H rs Ers.
  injection H as <-. simpl. rewrite !length_map.
  now rewrite (load_rows_length _ _ Ers).
Qed.

Lemma normalize_nonempty (col : list npfloat) :
  col <> [] -> exists out, normalize col = Ok out.
Proof.
  destruct col as [| x t]; [congruence | intros _].
  unfold normalize, shift, scale, divisor. simpl. eauto.
Qed.

Lemma normalize_length (col out : list npfloat) :
  normalize col = Ok out -> length out = length col /\ col <> [].
Proof.
  intros H. destruct (normalize_inv col out H) as (m & d & Hm & _ & ->).
  rewrite length_map. split; [reflexivity |]. now destruct col.
Qed.

Lemma prepare_lengths (lines : list string) (p : prepared) :
  prepare float equal_nan lines = Ok p ->
  N p = length lines - 1 /\ 1 <= N p /\
  length (locs0 (data p)) = N p /\ length (locs1 (data p)) = N p /\
  length (y_obs (data p)) = N p /\ length (y (data p)) = N p /\
  length (obs_inds p) = N p.
Proof.
  intros Hp.
  destruct (prepare_inv float equal_nan lines p Hp)
    as (raw & Hl & H0 & H1 & HN & _ & _ & _ & Hyo & Hyt & Hm & _).
  destruct (load_lengths _ _ Hl) as (L0 & L1 & L2 & L3).
  destruct (normalize_length _ _ H0) as [N0 Hne].
  destruct (normalize_length _ _ H1) as [N1 _].
  assert (Hcsv : length (read_csv lines) = length lines - 1).
  { unfold read_csv. destruct lines; simpl; [reflexivity |].
    rewrite length_map. lia. }
  rewrite HN, Hm, Hyo, Hyt, !length_map, N0, N1, L0, L1, L2, L3.
  repeat split; try congruence.
  destruct (locs0 raw); [congruence | simpl in L0; lia].
Qed.

(** X2: the preparation succeeds exactly when the file loads and has at
    least one row after the header; it raises the exception of the load
    when the load raises, and ValueError (from [np.min], line 61) when the
    file has no row, as every file of at most one line. *)
Theorem prepare_outcome (lines : list string) :
  (forall e, load float (read_csv lines) = Raise e ->
             prepare float equal_nan lines = Raise e) /\
  (forall raw, load float (read_csv lines) = Ok raw ->
               read_csv lines = [] ->
               prepare float equal_nan lines = Raise ValueError) /\
  (forall raw, load float (read_csv lines) = Ok raw ->
               read_csv lines <> [] ->
               exists p, prepare float equal_nan lines = Ok p) /\
  (length lines <= 1 -> prepare float equal_nan lines = Raise ValueError).
Proof.
  assert (Hnone : read_csv lines = [] ->
                  prepare float equal_nan lines = Raise ValueError).
  { intros E. unfold prepare. rewrite E. reflexivity. }
  split; [| split; [| split]].
  - intros e H. unfold prepare, mbind, result_bind. now rewrite H.
  - intros raw _ E. now apply Hnone.
  - intros raw H Hne.
    destruct (load_lengths _ _ H) as (L0 & L1 & _).
    assert (H0 : locs0 raw <> []).
    { intros E. rewrite E in L0. destruct (read_csv lines); [congruence | discriminate]. }
    assert (H1 : locs1 raw <> []).
    { intros E. rewrite E in L1. destruct (read_csv lines); [congruence | discriminate]. }
    destruct (locs0 raw) as [| a0 t0] eqn:E0; [congruence |].
    destruct (locs1 raw) as [| a1 t1] eqn:E1; [congruence |].
    unfold prepare, mbind, result_bind. rewrite H, E0, E1.
    unfold shift, scale, divisor, mbind, result_bind. simpl. eauto.
  - intros Hlen. apply Hnone. unfold read_csv.
    destruct lines as [| h [| l rest]]; simpl in *; [reflexivity | reflexivity | lia].
Qed.

Lemma load_rows_in (csv : list (list string)) (rs : list row) (line : list string) :
  load_rows float csv = Ok rs -> In line csv ->
  exists r, load_row float line = Ok r.
Proof.
  intros H Hin. destruct (List.In_nth_error _ _ Hin) as [idx Hidx].
  pose proof (load_rows_nth float _ _ H idx) as Hn. rewrite Hidx in Hn.
  destruct Hn as (r & _ & Hr). now exists r.
Qed.

Lemma lstrip_blank (s : string) :
  forallb is_space (list_ascii_of_string s) = true -> lstrip s = EmptyString.
Proof.
  induction s as [| c s IH]; simpl; [reflexivity |].
  intros H. apply andb_true_iff in H. destruct H as [Hc Hs].
  rewrite Hc. now apply IH.
Qed.

(** X3: a row with fewer than three fields never loads, so a file that
    holds one makes the preparation raise: IndexError from [line[1]] or
    [line[2]] when the fields that are there parse.  In particular a
    blank line after the header (an empty last line, say) makes the
    preparation raise. *)
Theorem short_row_raises (lines : list string) (line : list string) :
  In line (read_csv lines) -> length line < 3 ->
  (forall p, prepare float equal_nan lines <> Ok p) /\
  (forall r, load_row float line <> Ok r) /\
  ((forall f, In f line -> exists v, float f = Ok v) ->
   load_row float line = Raise IndexError) /\
  (forall text, In text (tail lines) ->
                forallb is_space (list_ascii_of_string text) = true ->
                forall p, prepare float equal_nan lines <> Ok p).
Proof.
  intros Hin Hlen.
  assert (Hrow : forall l, length l < 3 -> forall r, load_row float l <> Ok r).
  { intros l Hl r Hr.
    destruct (load_row_inv float _ _ Hr) as (f0 & f1 & f2 & rest & -> & _).
    simpl in Hl. lia. }
  assert (Hprep : forall l, In l (read_csv lines) -> length l < 3 ->
                            forall p, prepare float equal_nan lines <> Ok p).
  { intros l Hl Hshort p Hp.
    destruct (prepare_inv float equal_nan lines p Hp) as (raw & Hload & _).
    unfold load, mbind, result_bind in Hload. step_ok_as Hload rs Ers.
    destruct (load_rows_in _ _ _ Ers Hl) as [r Hr].
    exact (Hrow l Hshort r Hr). }
  split; [exact (Hprep line Hin Hlen) |]. split; [exact (Hrow line Hlen) |]. split.
  - intros Hparse. unfold load_row, mbind, result_bind.
    destruct line as [| f0 [| f1 [| f2 rest]]]; simpl in Hlen; try lia.
    + reflexivity.
    + cbn [index nth_error].
      destruct (Hparse f0 (or_introl eq_refl)) as [v0 ->]. reflexivity.
    + cbn [index nth_error].
      destruct (Hparse f0 (or_introl eq_refl)) as [v0 ->].
      destruct (Hparse f1 (or_intror (or_introl eq_refl))) as [v1 ->].
      reflexivity.
  - intros text Ht Hblank. apply (Hprep [EmptyString]); [| simpl; lia].
    unfold read_csv. destruct lines as [| h rest]; [destruct Ht |].
    simpl in Ht |- *. apply in_map_iff. exists text. split; [| assumption].
    unfold strip. now rewrite (lstrip_blank text Hblank).
Qed.

(* The truth of a row: its fourth field when there is one, zero otherwise
   (the array starts as [np.zeros]). *)
Lemma load_row_truth (line : list string) (r : row) :
  load_row float line = Ok r ->
  match nth_error line 3 with
  | Some f3 => float f3 = Ok (row_truth r)
  | None => row_truth r = Float.zero
  end.
Proof.
  unfold load_row, mbind, result_bind. intros H.
  step_ok_as H f0 I0. step_ok_as H v1 F0.
  step_ok_as H f1 I1. step_ok_as H v0 F1.
  step_ok_as H f2 I2. step_ok_as H o F2.
  destruct (3 <? length line)%nat eqn:E.
  - step_ok_as H t F3. injection H as <-. cbn [row_truth].
    step_ok_as F3 f3 I3. apply index_inv in I3. now rewrite I3.
  - injection H as <-. cbn [row_truth]. apply Nat.ltb_ge in E.
    destruct (nth_error line 3) eqn:E3; [| reflexivity].
    assert (3 < length line) by (apply nth_error_Some; congruence). lia.
Qed.

Lemma load_rows_no_truth (csv : list (list string)) (rs : list row) :
  load_rows float csv = Ok rs ->
  (forall line, In line csv -> length line <= 3) ->
  Forall (fun r => row_truth r = Float.zero) rs.
Proof.
  revert rs. induction csv as [| line rest IH]; simpl; intros rs H Hshort.
  - injection H as <-. constructor.
  - unfold mbind, result_bind in H.
    step_ok_as H r Er. step_ok_as H rs' Ers. injection H as <-.
    constructor.
    + pose proof (load_row_truth _ _ Er) as Ht.
      destruct (nth_error line 3) eqn:E3; [| assumption].
      assert (3 < length line) by (apply nth_error_Some; congruence).
      specialize (Hshort line (or_introl eq_refl)). lia.
    + apply IH; [reflexivity |]. intros l Hl. apply Hshort. now right.
Qed.

Lemma eqb_neg_zero (a : npfloat) :
  Float.eqb (Float.sub Float.zero a) Float.zero = Float.eqb a Float.zero.
Proof.
  destruct a as [m | | |]; simpl; try reflexivity.
  destruct (Qeq_bool m 0) eqn:E.
  - apply Qeq_bool_iff in E. apply Qeq_bool_iff. lra.
  - apply Qeq_bool_neq in E.
    destruct (Qeq_bool (0 + - m) 0) eqn:E'; [| reflexivity].
    apply Qeq_bool_iff in E'. exfalso. apply E. lra.
Qed.

(** X4: when no row of the file has a fourth field, every entry of [y] is
    [0 - obs_mean] after line 71, so that the test [np.any(y)] of line 109
    is true exactly when [obs_mean] is not zero (NaN included), whether a
    truth column was given or not. *)
Theorem truth_test_without_truth (lines : list string) (p : prepared) :
  prepare float equal_nan lines = Ok p ->
  (forall line, In line (read_csv lines) -> length line <= 3) ->
  Forall (fun v => v = Float.sub Float.zero (obs_mean p)) (y (data p)) /\
  Np.any (y (data p)) = negb (Float.eqb (obs_mean p) Float.zero).
Proof.
  intros Hp Hshort.
  destruct (prepare_lengths lines p Hp) as (_ & HN & _ & _ & _ & Hylen & _).
  destruct (prepare_inv float equal_nan lines p Hp)
    as (raw & Hl & _ & _ & _ & _ & _ & _ & _ & Hy & _).
  unfold load, mbind, result_bind in Hl. step_ok_as Hl rs Ers.
  injection Hl as <-. cbn [y] in Hy.
  pose proof (load_rows_no_truth _ _ Ers Hshort) as Hz.
  assert (Hall : Forall (fun v => v = Float.sub Float.zero (obs_mean p))
                        (y (data p))).
  { rewrite Hy, map_map. apply List.Forall_map.
    eapply List.Forall_impl; [| exact Hz]. intros r Hr. simpl. now rewrite Hr. }
  split; [assumption |].
  unfold Np.any. revert Hall Hylen HN. generalize (y (data p)) as l.
  intros l Hall Hlen HN. destruct l as [| v l]; [simpl in Hlen; lia |].
  inversion Hall as [| ? ? Hv Hrest]; subst. cbn [existsb].
  rewrite eqb_neg_zero.
  destruct (Float.eqb (obs_mean p) Float.zero) eqn:E; [| reflexivity].
  simpl. clear Hall Hlen.
  induction Hrest as [| w l Hw Hl IH]; [reflexivity |].
  cbn [existsb]. rewrite Hw, eqb_neg_zero, E. exact IH.
Qed.

Lemma isfinite_add (a b : npfloat) :
  Float.isfinite (Float.add a b) = Float.isfinite a && Float.isfinite b.
Proof. now destruct a, b. Qed.

Lemma isfinite_sub (a b : npfloat) :
  Float.isfinite (Float.sub a b) = Float.isfinite a && Float.isfinite b.
Proof. now destruct a, b. Qed.

Lemma isfinite_fold_add (l : list npfloat) (acc : npfloat) :
  Float.isfinite (fold_left Float.add l acc) =
  Float.isfinite acc && forallb Float.isfinite l.
Proof.
  revert acc. induction l as [| x l IH]; intros acc; simpl.
  - now rewrite andb_true_r.
  - now rewrite IH, isfinite_add, andb_assoc.
Qed.

Lemma isfinite_div_count (a : npfloat) (n : nat) :
  Float.isfinite (Float.div a (Fin (inject_Z (Z.of_nat n)))) =
  Float.isfinite a && negb (n =? 0)%nat.
Proof.
  destruct n as [| n].
  - destruct a as [x | | |]; simpl; try reflexivity.
    now destruct (Qeq_bool x 0), (Qle_bool 0 x).
  - assert (E : Qeq_bool (inject_Z (Z.of_nat (S n))) 0 = false).
    { apply pos_not_zero. unfold Qlt, inject_Z. simpl. lia. }
    destruct a as [x | | |]; cbn [Float.div Float.isfinite].
    + now rewrite E.
    + now destruct (Qle_bool 0 _).
    + now destruct (Qle_bool 0 _).
    + reflexivity.
Qed.

Lemma kept_all_finite (l : list npfloat) :
  forallb Float.isfinite (List.filter (fun a => negb (Float.isnan a)) l) =
  forallb (fun v => Float.isfinite v || Float.isnan v) l.
Proof.
  induction l as [| x l IH]; [reflexivity |].
  destruct x; simpl; rewrite ?IH; reflexivity.
Qed.

Lemma kept_nonempty (l : list npfloat) :
  forallb (fun v => Float.isfinite v || Float.isnan v) l = true ->
  negb (length (List.filter (fun a => negb (Float.isnan a)) l) =? 0)%nat =
  existsb Float.isfinite l.
Proof.
  induction l as [| x l IH]; [reflexivity |].
  destruct x; simpl; intros H; try discriminate; [reflexivity | now apply IH].
Qed.

(* [np.nanmean] is finite exactly when some entry is finite and none is
   infinite. *)
Lemma isfinite_nanmean (l : list npfloat) :
  Float.isfinite (Np.nanmean l) =
  existsb Float.isfinite l &&
  forallb (fun v => Float.isfinite v || Float.isnan v) l.
Proof.
  unfold Np.nanmean, Np.sum. cbv zeta.
  rewrite isfinite_div_count, isfinite_fold_add, kept_all_finite.
  cbn [Float.zero Float.isfinite andb].
  destruct (forallb (fun v => Float.isfinite v || Float.isnan v) l) eqn:E.
  - rewrite (kept_nonempty l E). now rewrite andb_true_r.
  - now rewrite andb_false_r.
Qed.

(** X5: [obs_mean] is finite exactly when some observation is finite and
    none is infinite.  Then the mask [obs_inds] marks exactly the rows
    whose observation is finite; otherwise (every field [NA], or a field
    [inf]) the mask is [False] in every row and neither [y_obs] nor [y]
    holds a finite value after lines 70-71. *)
Theorem mean_and_mask (lines : list string) (p : prepared) (raw : arrays) :
  prepare float equal_nan lines = Ok p ->
  load float (read_csv lines) = Ok raw ->
  Float.isfinite (obs_mean p) =
    existsb Float.isfinite (y_obs raw) &&
    forallb (fun v => Float.isfinite v || Float.isnan v) (y_obs raw) /\
  (Float.isfinite (obs_mean p) = true ->
   obs_inds p = map Float.isfinite (y_obs raw)) /\
  (Float.isfinite (obs_mean p) = false ->
   Forall (fun b => b = false) (obs_inds p) /\
   Forall (fun v => Float.isfinite v = false) (y_obs (data p)) /\
   Forall (fun v => Float.isfinite v = false) (y (data p))).
Proof.
  intros Hp Hl.
  destruct (prepare_inv float equal_nan lines p Hp)
    as (raw' & Hl' & _ & _ & _ & _ & _ & Hmean & Hyo & Hyt & Hmask & _).
  rewrite Hl in Hl'. injection Hl' as <-.
  split; [rewrite Hmean; apply isfinite_nanmean |].
  rewrite Hmask, Hyo, Hyt, map_map. split.
  - intros Hfin. apply map_ext. intros v.
    now rewrite isfinite_sub, Hfin, andb_true_r.
  - intros Hinf.
    assert (Hsub : forall v, Float.isfinite (Float.sub v (obs_mean p)) = false).
    { intros v. now rewrite isfinite_sub, Hinf, andb_false_r. }
    split; [| split]; apply List.Forall_map, List.Forall_forall; intros v _;
      apply Hsub.
Qed.




(** X13: loading stops at the first row that fails: when the rows before
    it load and the row raises, the load raises that exception, whatever
    the rows after it hold. *)
Theorem first_failing_row (pre post : list (list string))
        (line : list string) (rs : list row) (e : exn) :
  load_rows float pre = Ok rs ->
  load_row float line = Raise e ->
  load float (pre ++ line :: post) = Raise e.
Proof.
  intros Hpre Hline. unfold load, mbind, result_bind.
  assert (H : load_rows float (pre ++ line :: post) = Raise e).
  { revert rs Hpre. induction pre as [| l pre IH]; intros rs Hpre.
    - simpl. unfold mbind, result_bind. now rewrite Hline.
    - simpl in Hpre |- *. unfold mbind, result_bind in Hpre |- *.
      step_ok_as Hpre r Er. step_ok_as Hpre rs' Ers.
      now rewrite (IH rs' eq_refl). }
  now rewrite H.
Qed.

Lemma insert_sorted_length (x : npfloat) (l : list npfloat) :
  1 <= length (Np.insert_sorted x l) <= S (length l).
Proof.
  induction l as [| y t IH]; simpl; [lia |].
  destruct (Float.eqb x y); [simpl; lia |].
  destruct (Float.ltb x y); simpl; lia.
Qed.

Lemma foldr_insert_length (l : list npfloat) :
  length (foldr Np.insert_sorted [] l) <= length l /\
  (l <> [] -> 1 <= length (foldr Np.insert_sorted [] l)).
Proof.
  induction l as [| x l [IH _]]; simpl; [split; [lia | congruence] |].
  pose proof (insert_sorted_length x (foldr Np.insert_sorted [] l)). lia.
Qed.

(* [np.unique] of a non-empty array has at least one and at most as many
   entries as the array. *)
Lemma unique_length (en : bool) (l : list npfloat) :
  l <> [] -> 1 <= length (Np.unique en l) <= length l.
Proof.
  intros Hne. unfold Np.unique. rewrite length_app.
  pose proof (List.filter_length Float.isnan l) as Hsplit.
  set (K := List.filter (fun a => negb (Float.isnan a)) l) in *.
  set (nans := List.filter Float.isnan l) in *.
  destruct (foldr_insert_length K) as [Hle Hge].
  assert (Hn : length (if en then firstn 1 nans else nans) <= length nans).
  { destruct en; [rewrite List.length_firstn |]; lia. }
  split; [| lia].
  destruct K as [| k K'] eqn:EK.
  - assert (Hnans : nans <> []).
    { intros E. rewrite E in Hsplit. simpl in Hsplit.
      destruct l; [congruence | simpl in Hsplit; lia]. }
    destruct nans as [| a t]; [congruence |]. destruct en; simpl; lia.
  - specialize (Hge ltac:(discriminate)). lia.
Qed.

(** X7: the grid dimensions of line 67 lie between 1 and the number of
    rows: [1 <= Nx <= N] and [1 <= Ny <= N]. *)
Theorem grid_dims_bounds (lines : list string) (p : prepared) :
  prepare float equal_nan lines = Ok p ->
  1 <= Nx p <= N p /\ 1 <= Ny p <= N p.
Proof.
  intros Hp.
  destruct (prepare_lengths lines p Hp) as (_ & HN & L0 & L1 & _).
  destruct (prepare_inv float equal_nan lines p Hp)
    as (_ & _ & _ & _ & _ & Hx & Hy & _).
  assert (H0 : locs0 (data p) <> []) by (intros E; rewrite E in L0; simpl in L0; lia).
  assert (H1 : locs1 (data p) <> []) by (intros E; rewrite E in L1; simpl in L1; lia).
  pose proof (unique_length equal_nan _ H0).
  pose proof (unique_length equal_nan _ H1).
  rewrite Hx, Hy. lia.
Qed.

End Edge.

Lemma prepare_outcome_witness :
  prepare Sample.float_lit true Sample.header_only = Raise ValueError /\
  (exists p, prepare Sample.float_lit true Sample.grid_lines = Ok p) /\
  prepare Sample.float_lit true Sample.short_lines = Raise IndexError.
Proof.
  split; [| split].
  - apply (prepare_outcome Sample.float_lit true Sample.header_only).
    simpl. lia.
  - refine (proj1 (proj2 (proj2 (prepare_outcome Sample.float_lit true
                                   Sample.grid_lines))) _ eq_refl _).
    vm_compute. discriminate.
  - apply (prepare_outcome Sample.float_lit true Sample.short_lines).
    vm_compute. reflexivity.
Defined.

Lemma short_row_raises_witness :
  (forall p, prepare Sample.float_lit true Sample.short_lines <> Ok p) /\
  load_row Sample.float_lit ["0"; "1"] = Raise IndexError.
Proof.
  destruct (short_row_raises Sample.float_lit true Sample.short_lines
              ["0"; "1"]) as (Hp & _ & Hidx & _).
  - vm_compute. now left.
  - simpl. lia.
  - split; [exact Hp |]. apply Hidx.
    intros f [<- | [<- | []]]; vm_compute; eauto.
Defined.

Lemma truth_test_without_truth_witness :
  exists p,
    prepare Sample.float_lit true Sample.grid_lines = Ok p /\
    y (data p) = [Fin (-1 # 2); Fin (-1 # 2); Fin (-1 # 2); Fin (-1 # 2)] /\
    Np.any (y (data p)) = true.
Proof.
  eexists. split; [vm_compute; reflexivity |]. split; [reflexivity |].
  refine (proj2 (truth_test_without_truth Sample.float_lit true
                   Sample.grid_lines _ eq_refl _)).
  intros line Hin. vm_compute in Hin.
  destruct Hin as [<- | [<- | [<- | [<- | []]]]]; simpl; lia.
Defined.

Lemma mean_and_mask_witness :
  exists p,
    prepare Sample.float_lit true Sample.grid_lines = Ok p /\
    Float.isfinite (obs_mean p) = true /\
    obs_inds p = map Float.isfinite [Fin 1; NaN; Fin 0; NaN].
Proof.
  eexists. split; [vm_compute; reflexivity |].
  destruct (mean_and_mask Sample.float_lit true Sample.grid_lines _
              (mkArrays [Fin 0; Fin 1; Fin 0; Fin 1] [Fin 0; Fin 0; Fin 1; Fin 1]
                        [Fin 1; NaN; Fin 0; NaN]
                        [Fin 0; Fin 0; Fin 0; Fin 0])
              eq_refl) as (Hfin & Hmask & _).
  - vm_compute. reflexivity.
  - split; [reflexivity |]. apply Hmask. reflexivity.
Defined.



Lemma first_failing_row_witness :
  load Sample.float_lit ([["0"; "0"; "1"]] ++ ["0"; "1"] :: [["x"]]) =
  Raise IndexError.
Proof.
  eapply (first_failing_row Sample.float_lit).
  - vm_compute. reflexivity.
  - vm_compute. reflexivity.
Defined.

Lemma grid_dims_bounds_witness :
  exists p,
    prepare Sample.float_lit true Sample.grid_lines = Ok p /\
    1 <= Nx p <= N p /\ 1 <= Ny p <= N p.
Proof.
  eexists. split; [vm_compute; reflexivity |].
  apply (grid_dims_bounds Sample.float_lit true Sample.grid_lines).
  vm_compute. reflexivity.
Defined.

End EdgeFacts.

(** ** The script: display and the statements after [sys.exit()] *)

Module FlowFacts.
Import Script PrepareFacts MainFacts EdgeFacts.

(* Reshaping cuts the array into [rows] rows of [cols] entries and loses
   nothing. *)
Lemma chunks_shape {A} (rows cols : nat) (l : list A) :
  rows * cols = length l ->
  length (Np.chunks rows cols l) = rows /\
  Forall (fun r => length r = cols) (Np.chunks rows cols l) /\
  concat (Np.chunks rows cols l) = l.
Proof.
  revert l. induction rows as [| r IH]; intros l H; simpl in *.
  - destruct l; [| discriminate]. repeat split. constructor.
  - destruct (IH (skipn cols l)) as (H1 & H2 & H3).
    { rewrite List.length_skipn. lia. }
    split; [now rewrite H1 |]. split.
    + constructor; [| assumption]. rewrite List.length_firstn. lia.
    + rewrite H3. apply firstn_skipn.
Qed.

Section Flow.

Variable float : string -> result npfloat.
Variable equal_nan : bool.
Variable dispMat : matrix -> string -> string -> result unit.
Variable ExpCovFun : list loc -> list loc -> npfloat -> matrix.
Variable tree : Type.
Variable MRATree : Config -> result tree.
Variable predict : tree -> result (list npfloat * list npfloat).

Local Abbreviation main :=
  (main float equal_nan dispMat ExpCovFun tree MRATree predict).
Local Abbreviation tail_of_main :=
  (tail_of_main dispMat ExpCovFun tree MRATree predict).

(** X8: the reshape of line 76 needs a full grid.  When [Nx * Ny] differs
    from the number of rows the run ends there with ValueError and nothing
    is displayed; when they agree the matrix handed to [dispMat] has [Nx]
    rows of [Ny] entries which, put end to end, are [y_obs], and an
    exception of [dispMat] ends the run before [sys.exit()]. *)
Theorem display_needs_grid (lines : list string) (p : prepared) :
  prepare float equal_nan lines = Ok p ->
  (Nx p * Ny p <> N p ->
   main lines = ([EvSeed 11; EvLogConfig], Raise ValueError)) /\
  (Nx p * Ny p = N p ->
   exists y_disp,
     Np.reshape (Nx p) (Ny p) (y_obs (data p)) = Ok y_disp /\
     length y_disp = Nx p /\
     Forall (fun r => length r = Ny p) y_disp /\
     concat y_disp = y_obs (data p) /\
     (forall e, dispMat y_disp "Spectral" "observations" = Raise e ->
                main lines = ([EvSeed 11; EvLogConfig], Raise e))).
Proof.
  intros Hp.
  destruct (prepare_lengths float equal_nan lines p Hp)
    as (_ & _ & _ & _ & Hlen & _).
  unfold Script.main. rewrite !run_bind_emit, run_bind_lift, Hp, run_bind_lift.
  unfold Np.reshape. rewrite Hlen. split.
  - intros Hne. apply Nat.eqb_neq in Hne. now rewrite Hne.
  - intros Heq. pose proof Heq as Heqb. apply Nat.eqb_eq in Heqb. rewrite Heqb.
    rewrite <- Hlen in Heq.
    destruct (chunks_shape _ _ _ Heq) as (H1 & H2 & H3).
    eexists. split; [reflexivity |].
    repeat (split; [assumption |]).
    intros e He. rewrite run_bind_lift, He. reflexivity.
Qed.

(** X9: the statements after line 79, when they run.  A failing
    constructor ends them before [predict]; a failing [predict], or a
    result whose vectors do not have [Nx * Ny] entries, ends them before
    anything is saved; otherwise [y-pred.npy] receives the reshaped mean,
    and this before any display, so that a failing display cannot undo
    it. *)
Theorem tail_outcomes (p : prepared) :
  let cfg := call_config ExpCovFun p in
  (forall e, MRATree cfg = Raise e ->
             tail_of_main p = ([EvLog "MRA started"; EvBuild cfg], Raise e)) /\
  (forall t e,
      MRATree cfg = Ok t -> predict t = Raise e ->
      tail_of_main p =
        ([EvLog "MRA started"; EvBuild cfg; EvPredict], Raise e)) /\
  (forall t yP sdP,
      MRATree cfg = Ok t -> predict t = Ok (yP, sdP) ->
      length sdP <> Nx p * Ny p \/ length yP <> Nx p * Ny p ->
      tail_of_main p =
        ([EvLog "MRA started"; EvBuild cfg; EvPredict], Raise ValueError)) /\
  (forall t yP sdP,
      MRATree cfg = Ok t -> predict t = Ok (yP, sdP) ->
      length sdP = Nx p * Ny p -> length yP = Nx p * Ny p ->
      exists rest,
        trace (tail_of_main p) =
        [EvLog "MRA started"; EvBuild cfg; EvPredict; EvLog "MRA finished";
         EvSave "y-pred.npy" (Np.chunks (Nx p) (Ny p) yP)] ++ rest).
Proof.
  intros cfg. unfold Script.tail_of_main. fold cfg.
  rewrite run_bind_emit. cbv zeta. fold cfg. rewrite run_bind_emit.
  rewrite run_bind_lift.
  split; [| split; [| split]].
  - intros e He. now rewrite He.
  - intros t e Ht He. rewrite Ht, run_bind_emit, run_bind_lift, He. reflexivity.
  - intros t yP sdP Ht Hpr Hlen.
    rewrite Ht, run_bind_emit, run_bind_lift, Hpr, run_bind_lift.
    unfold Np.reshape.
    destruct (Nat.eqb_spec (Nx p * Ny p) (length sdP)) as [Es | Es];
      [| reflexivity].
    rewrite run_bind_lift.
    destruct (Nat.eqb_spec (Nx p * Ny p) (length yP)) as [Ey | Ey];
      [| reflexivity].
    destruct Hlen; congruence.
  - intros t yP sdP Ht Hpr Hs Hy.
    rewrite Ht, run_bind_emit, run_bind_lift, Hpr, run_bind_lift.
    unfold Np.reshape. rewrite Hs, Hy, Nat.eqb_refl.
    rewrite run_bind_lift, !run_bind_emit. cbn [trace fst outcome snd].
    eexists. reflexivity.
Qed.

End Flow.

Lemma display_needs_grid_witness :
  Script.main Sample.float_lit true Sample.show Sample.flat_cov unit
              Sample.no_tree Sample.no_predict Sample.diagonal_lines =
  ([EvSeed 11; EvLogConfig], Raise ValueError).
Proof.
  refine (proj1 (display_needs_grid Sample.float_lit true Sample.show
                   Sample.flat_cov unit Sample.no_tree Sample.no_predict
                   Sample.diagonal_lines _ _) _).
  - vm_compute. reflexivity.
  - vm_compute. discriminate.
Defined.

Lemma tail_outcomes_witness :
  exists p,
    prepare Sample.float_lit true Sample.grid_lines = Ok p /\
    Script.tail_of_main Sample.show Sample.flat_cov unit Sample.no_tree
                        Sample.no_predict p =
    ([EvLog "MRA started"; EvBuild (call_config Sample.flat_cov p)],
     Raise OtherError).
Proof.
  eexists. split; [vm_compute; reflexivity |].
  refine (proj1 (tail_outcomes Sample.show Sample.flat_cov unit Sample.no_tree
                   Sample.no_predict _) OtherError eq_refl).
Defined.

End FlowFacts.

(** ** The script: lines, fields and white space *)

Module TextFacts.
Import Script LoadFacts.

Lemma split_nonempty (sep : ascii) (s : string) : split sep s <> [].
Proof.
  destruct s as [| c t]; simpl; [discriminate |].
  destruct (Ascii.eqb c sep); [discriminate |].
  destruct (split sep t); discriminate.
Qed.

Lemma concat_cons_nonempty (sep x : string) (xs : list string) :
  xs <> [] -> String.concat sep (x :: xs) = (x ++ sep ++ String.concat sep xs)%string.
Proof. destruct xs; [congruence | reflexivity]. Qed.

(* Joining the fields with the separator gives the string back. *)
Lemma split_join (sep : ascii) (s : string) :
  String.concat (String sep EmptyString) (split sep s) = s.
Proof.
  induction s as [| c t IH]; [reflexivity |].
  cbn [split]. destruct (Ascii.eqb_spec c sep) as [-> | Hne].
  - rewrite concat_cons_nonempty by apply split_nonempty.
    now rewrite IH.
  - destruct (split sep t) as [| f fs] eqn:E.
    + now destruct (split_nonempty sep t).
    + destruct fs as [| g gs].
      * simpl in IH |- *. now rewrite IH.
      * rewrite concat_cons_nonempty in IH |- * by discriminate.
        rewrite <- IH. reflexivity.
Qed.

Lemma split_no_sep (sep : ascii) (s : string) :
  Forall (fun f => forallb (fun c => negb (Ascii.eqb c sep))
                           (list_ascii_of_string f) = true)
         (split sep s).
Proof.
  induction s as [| c t IH]; [now repeat constructor |].
  cbn [split]. destruct (Ascii.eqb c sep) eqn:E.
  - constructor; [reflexivity | assumption].
  - destruct (split sep t) as [| f fs]; [now repeat constructor; simpl; rewrite E |].
    inversion IH as [| ? ? Hf Hfs]; subst.
    constructor; [| assumption]. simpl. now rewrite E, Hf.
Qed.

Lemma split_count (sep : ascii) (s : string) :
  length (split sep s) =
  S (length (List.filter (fun c => Ascii.eqb c sep) (list_ascii_of_string s))).
Proof.
  induction s as [| c t IH]; [reflexivity |].
  cbn [split list_ascii_of_string List.filter].
  destruct (Ascii.eqb c sep); [simpl; now rewrite IH |].
  destruct (split sep t) as [| f fs]; simpl in *; lia.
Qed.

(** X10: every row of line 44 is the stripped line of the file cut at its
    commas: the fields hold no comma, they are one more than the commas of
    the stripped line, and joined by commas they give it back. *)
Theorem rows_are_fields (lines : list string) (idx : nat) (line : list string) :
  nth_error (read_csv lines) idx = Some line ->
  exists text,
    nth_error lines (S idx) = Some text /\
    String.concat "," line = strip text /\
    length line =
      S (length (List.filter (fun c => Ascii.eqb c ",")
                             (list_ascii_of_string (strip text)))) /\
    Forall (fun f => forallb (fun c => negb (Ascii.eqb c ","))
                             (list_ascii_of_string f) = true) line.
Proof.
  rewrite read_csv_nth. destruct (nth_error lines (S idx)) as [text |];
    [| discriminate].
  intros [= <-]. exists text. split; [reflexivity |].
  split; [apply split_join |]. split; [apply split_count | apply split_no_sep].
Qed.

Lemma rows_are_fields_witness :
  exists text,
    nth_error Sample.grid_lines 2 = Some text /\
    String.concat "," ["0"; "1"; "NA"] = strip text /\
    length ["0"; "1"; "NA"] =
      S (length (List.filter (fun c => Ascii.eqb c ",")
                             (list_ascii_of_string (strip text)))).
Proof.
  destruct (rows_are_fields Sample.grid_lines 1 ["0"; "1"; "NA"] eq_refl)
    as (text & H1 & H2 & H3 & _).
  exists text. now repeat split.
Defined.




End TextFacts.
